(** * ApaleoConnectAdaptor: a shallow embedding of
      [src/lib/ApaleoConnectAdapter.ts]

    The adapter is a TypeScript class whose methods build one request for
    the Apaleo REST API, await the answer of the inherited request driver
    and convert the vendor payload.  TypeScript types are erased at run
    time, so the embedding works on untyped JavaScript values; the
    collaborators the class imports (the request driver, the token
    endpoint helper, the mappers of [./utils], the constant of
    [./ApaleoConfig]) are taken as parameters. *)

From stdpp Require Import gmap strings list fin_maps pretty.

Open Scope string_scope.
Open Scope Z_scope.

#[local] Set Warnings "-register-all".

(** ** JavaScript values *)

Module JS.

(** The values that reach the adapter: JSON data plus [undefined].
    [VNum n] stands for the integral number [n]; the adapter performs no
    arithmetic, numbers are only passed along or printed into a path. *)
Inductive value : Type :=
| VUndefined
| VNull
| VBool (b : bool)
| VNum (n : Z)
| VStr (s : string)
| VArr (l : list value)
| VObj (o : gmap string value).

(** What a rejected call carries. [TypeError p] is the error the engine
    raises when property [p] is read from, or called on, a value that
    does not admit it; [Error msg] is [new Error(msg)]; [Rejected r] is
    whatever a collaborator rejects with. *)
Inductive exn : Type :=
| TypeError (prop : string)
| Error (msg : string)
| Rejected (reason : value).

Inductive outcome (A : Type) : Type :=
| Returned (a : A)
| Thrown (e : exn).
Arguments Returned {A} a.
Arguments Thrown {A} e.

(** ToBoolean: [!v] is [negb (truthy v)]. *)
Definition truthy (v : value) : bool :=
  match v with
  | VUndefined | VNull => false
  | VBool b => b
  | VNum n => negb (n =? 0)
  | VStr s => negb (String.eqb s "")
  | VArr _ | VObj _ => true
  end.

Definition nullish (v : value) : bool :=
  match v with
  | VUndefined | VNull => true
  | _ => false
  end.

(** A parameter default [x = d] applies only when the argument is
    [undefined]. *)
Definition default_to (d v : value) : value :=
  match v with
  | VUndefined => d
  | _ => v
  end.

(** [o.k] on a value that is neither [null] nor [undefined].  The keys
    the adapter reads ([data], [count], [id], [rates_range], [from], ...)
    are no prototype properties, so on anything but an object with that
    own property the read gives [undefined]. *)
Definition prop (v : value) (k : string) : value :=
  match v with
  | VObj o => default VUndefined (o !! k)
  | _ => VUndefined
  end.

(** Property read [v.k]: a TypeError on [null] and [undefined]. *)
Definition get (v : value) (k : string) : outcome value :=
  if nullish v then Thrown (TypeError k) else Returned (prop v k).

(** The own enumerable properties copied by a spread [{...v}]: nothing
    for [undefined], [null], booleans and numbers, the index keys for
    arrays and strings, the entries for objects. *)
Definition indexed (l : list value) : gmap string value :=
  list_to_map (imap (fun i x => (pretty i, x)) l).

Definition chars (s : string) : list value :=
  (fun c => VStr (String c EmptyString)) <$> String.list_ascii_of_string s.

Definition own_props (v : value) : gmap string value :=
  match v with
  | VObj o => o
  | VArr l => indexed l
  | VStr s => indexed (chars s)
  | _ => ∅
  end.

(** An object literal [{k1: v1, ..., kn: vn}], fields in source order
    (a later field overwrites an earlier one of the same name). *)
Definition obj_from (base : gmap string value)
    (fields : list (string * value)) : value :=
  VObj (foldl (fun o kv => <[kv.1 := kv.2]> o) base fields).

Definition obj (fields : list (string * value)) : value := obj_from ∅ fields.

(** [{...v, k1: v1, ..., kn: vn}] *)
Definition spread (v : value) (fields : list (string * value)) : value :=
  obj_from (own_props v) fields.

(** Number::toString of the engine, on the integral numbers.  The class
    file never prints a number itself, its template literals do; all
    that is fixed here is that a safe integer prints its decimal digits.
    Past [2 ^ 53] the engine prints the shortest digits that read back
    as the same double and, from [1e21] on, an exponent form: those
    strings are the engine's, and nothing below depends on them. *)
Class Engine : Type := {
  number_to_string : Z -> string;
  safe_integer_digits :
    forall n, Z.abs n <= 2 ^ 53 -> number_to_string n = pretty n
}.

(** ToString, as a template literal applies it.  Numbers print as the
    engine prints them; array elements are joined with commas, [null]
    and [undefined] elements printing as the empty string; a plain
    object prints through [Object.prototype.toString]. *)
Fixpoint to_string `{Engine} (v : value) : string :=
  match v with
  | VUndefined => "undefined"
  | VNull => "null"
  | VBool true => "true"
  | VBool false => "false"
  | VNum n => number_to_string n
  | VStr s => s
  | VArr l =>
      let elt x := if nullish x then "" else to_string x in
      String.concat "," (elt <$> l)
  | VObj _ => "[object Object]"
  end.

End JS.
Export JS.

(** ** Calls to collaborators

    Everything the class does to the outside goes through one of these
    calls; a run records them in order. *)

Inductive event : Type :=
| HttpGet (url : string) (config : value)
    (* this.http.get(url, config); config is undefined when omitted *)
| GenerateAccessToken (args : value)
    (* ApaleoGenerateAccessToken(args), the token exchange *)
| Super (options : value)
    (* super(options): the data fields handed to RestRequestDriver *)
| SetTokenStore (store : value).
    (* this.setTokenStore(store) *)

(** How the outside answers a call: the awaited value or a rejection. *)
Definition env : Type := event -> outcome value.

(** Computations: read the environment, append to the log of calls,
    return or throw. *)
Definition M (A : Type) : Type := env -> list event -> outcome A * list event.

Definition ret {A} (a : A) : M A := fun _ log => (Returned a, log).

Definition throw {A} (e : exn) : M A := fun _ log => (Thrown e, log).

Definition bind {A B} (m : M A) (k : A -> M B) : M B :=
  fun w log =>
    match m w log with
    | (Returned a, log') => k a w log'
    | (Thrown e, log') => (Thrown e, log')
    end.

Definition lift {A} (r : outcome A) : M A := fun _ log => (r, log).

Definition perform (ev : event) : M value := fun w log => (w ev, (log ++ [ev])%list).

Declare Scope js_scope.
Delimit Scope js_scope with js.
Notation "x <- m ;; k" := (bind m (fun x => k))
  (at level 100, m at next level, right associativity) : js_scope.
Notation "m ;;; k" := (bind m (fun _ => k))
  (at level 100, right associativity) : js_scope.
Open Scope js_scope.

Definition run {A} (m : M A) (w : env) : outcome A * list event := m w [].

Definition result {A} (m : M A) (w : env) : outcome A := (run m w).1.
Definition calls {A} (m : M A) (w : env) : list event := (run m w).2.

(** [arr.map(f)]: a TypeError unless [arr] is an array; the callback runs
    on the elements from left to right and the first throw ends the
    loop. *)
Fixpoint map_elements (f : value -> M value) (l : list value) : M (list value) :=
  match l with
  | [] => ret []
  | x :: l' => y <- f x ;; ys <- map_elements f l' ;; ret (y :: ys)
  end.

Definition array_map (arr : value) (f : value -> M value) : M value :=
  match arr with
  | VArr l => ys <- map_elements f l ;; ret (VArr ys)
  | _ => throw (TypeError "map")
  end.

Definition http_get (url : string) (config : value) : M value :=
  perform (HttpGet url config).

(** ** Imported collaborators *)

(** Modelled from the spec: the mappers of [./utils], whose source is not
    part of the class file.  The spec's mapper contract makes each of
    them a pure, deterministic and total function from one vendor shape
    to one canonical shape, performing no I/O. *)
Class Mappers : Type := {
  toConnectedHotel : value -> value;
  toConnectedRoomType : value -> value;
  toConnectedRatePaln : value -> value;
  convertToConnectedRate : value -> value;
  toConnectedCancellationPolicy : value -> value;
  toConnectedNoShowPolicy : value -> value;
  toConnectedAgeCategory : value -> value;
  toConnectedService : value -> value
}.

(** [Config] of [./ApaleoConfig]: only the base URL is used. *)
Class Config : Type := { API_BASE_URL : string }.

(** A mapper used as the callback of [Array.prototype.map]. *)
Definition pure_cb (f : value -> value) : value -> M value := fun x => ret (f x).

(** ** The class *)

Module ApaleoConnectAdaptor.

Section Adaptor.
Context `{Mappers} `{Config} `{Engine}.

(** What the constructor leaves behind besides its calls: the refresh
    closure it hands to the driver. *)
Record adaptor : Type := { generteAccessToken : value -> M value }.

(** The closure ignores its [token] argument and sends the refresh token
    captured at construction. *)
Definition refresh_closure
    (client_secret client_id redirect_uri refresh_token : value)
    (token : value) : M value :=
  data <- perform (GenerateAccessToken
            (obj [("client_secret", client_secret);
                  ("client_id", client_id);
                  ("redirect_uri", redirect_uri);
                  ("refresh", refresh_token)])) ;;
  if negb (truthy data)
  then throw (Error "ApaleoConnectAdaptor:generteAccessToken - Cant create access token")
  else ret data.

Definition constructor (options : value) : M adaptor :=
  c0 <- lift (get options "client_id") ;;
  let client_id := default_to VNull c0 in
  let client_secret := default_to VNull (prop options "client_secret") in
  let refresh_token := default_to (VStr "") (prop options "refresh_token") in
  let access_token := prop options "access_token" in
  let redirect_uri := default_to (VStr "") (prop options "redirect_uri") in
  if negb (truthy client_id) || negb (truthy client_secret)
  then throw (Error "Apaleo client credentials missing")
  else
    perform (Super
      (obj [("refreshToken", refresh_token);
            ("accessToken", if truthy access_token then access_token else VStr "");
            ("baseUrl", VStr API_BASE_URL)])) ;;;
    (if truthy (prop options "tokenStore")
     then perform (SetTokenStore (prop options "tokenStore"))
     else ret VUndefined) ;;;
    ret {| generteAccessToken :=
             refresh_closure client_secret client_id redirect_uri refresh_token |}.

(** Declared for the adapter interface and left unimplemented. *)
Definition getAuthorizeUrl (params : value) : M value :=
  throw (Error "Method not implemented.").

Definition getAccount : M value :=
  res <- http_get "/account/v1/accounts/current" VUndefined ;;
  lift (get res "data").

Definition getHotels (params : value) : M value :=
  let params := default_to (obj []) params in
  res <- http_get "/inventory/v1/properties" (obj [("params", params)]) ;;
  d <- lift (get res "data") ;;
  ps <- lift (get d "properties") ;;
  hotels <- array_map ps (pure_cb toConnectedHotel) ;;
  d' <- lift (get res "data") ;;
  c <- lift (get d' "count") ;;
  ret (obj [("data", hotels); ("count", c)]).

Definition getHotelById (id params : value) : M value :=
  let params := default_to (obj []) params in
  res <- http_get ("/inventory/v1/properties/" +:+ to_string id)
           (obj [("params", params)]) ;;
  data <- lift (get res "data") ;;
  ret (toConnectedHotel data).

Definition getRoomsTypes (hotelId params : value) : M value :=
  let params := default_to (obj []) params in
  res <- http_get "/inventory/v1/unit-groups"
           (obj [("params", spread params [("propertyId", hotelId)])]) ;;
  data <- lift (get res "data") ;;
  count <- lift (get data "count") ;;
  let unitGroups := prop data "unitGroups" in
  roomTypes <- array_map unitGroups (pure_cb toConnectedRoomType) ;;
  ret (obj [("count", count); ("data", roomTypes)]).

Definition getRoomTypeById (roomTypeId : value) : M value :=
  res <- http_get ("/inventory/v1/unit-groups/" +:+ to_string roomTypeId)
           VUndefined ;;
  d <- lift (get res "data") ;;
  ret (toConnectedRoomType d).

Definition getRatePlansByHotelId (hotelId params : value) : M value :=
  let params := default_to (obj []) params in
  res <- http_get "/rateplan/v1/rate-plans"
           (obj [("params", spread params [("propertyId", hotelId)])]) ;;
  data <- lift (get res "data") ;;
  rps <- lift (get data "ratePlans") ;;
  ratePlanItems <- array_map rps (pure_cb toConnectedRatePaln) ;;
  ret (obj [("data", ratePlanItems); ("count", prop data "count")]).

Definition getRatePlanById (ratePlanId params : value) : M value :=
  res <- http_get ("/rateplan/v1/rate-plans/" +:+ to_string ratePlanId)
           (obj [("params", params)]) ;;
  data <- lift (get res "data") ;;
  ret (toConnectedRatePaln data).

Definition getRatesByRatePlan (ratePlan params : value) : M value :=
  let params := default_to (obj []) params in
  id <- lift (get ratePlan "id") ;;
  let url := "/rateplan/v1/rate-plans/" +:+ to_string id +:+ "/rates" in
  from <- lift (get (prop ratePlan "rates_range") "from") ;;
  to <- lift (get (prop ratePlan "rates_range") "to") ;;
  res <- http_get url
           (obj [("params", spread params [("from", from); ("to", to)])]) ;;
  data <- lift (get res "data") ;;
  rs <- lift (get data "rates") ;;
  rates <- array_map rs (pure_cb convertToConnectedRate) ;;
  ret (obj [("count", prop data "count"); ("data", rates)]).

Definition getCancellationPolicies (hotelId params : value) : M value :=
  let params := default_to (obj []) params in
  res <- http_get "/rateplan/v1/cancellation-policies"
           (obj [("params", spread params [("propertyId", hotelId)])]) ;;
  data <- lift (get res "data") ;;
  cps <- lift (get data "cancellationPolicies") ;;
  mapped <- array_map cps (pure_cb toConnectedCancellationPolicy) ;;
  ret (obj [("data", mapped); ("count", prop data "count")]).

(** [params] is declared and defaulted but never read. *)
Definition getCancellationPolicyById (cancellationPolicyId params : value)
    : M value :=
  let params := default_to (obj []) params in
  res <- http_get ("/rateplan/v1/cancellation-policies/"
                     +:+ to_string cancellationPolicyId) VUndefined ;;
  data <- lift (get res "data") ;;
  ret (toConnectedCancellationPolicy data).

Definition getNoShowPolicies (propertyId params : value) : M value :=
  let params := default_to (obj []) params in
  res <- http_get "/rateplan/v1/no-show-policies"
           (obj [("params", spread params [("propertyId", propertyId)])]) ;;
  data <- lift (get res "data") ;;
  nsps <- lift (get data "noShowPolicies") ;;
  mapped <- array_map nsps (pure_cb toConnectedNoShowPolicy) ;;
  ret (obj [("data", mapped); ("count", prop data "count")]).

Definition getNoShowPolicyById (noShowPolicyId params : value) : M value :=
  let params := default_to (obj []) params in
  res <- http_get ("/rateplan/v1/no-show-policies/" +:+ to_string noShowPolicyId)
           (obj [("params", params)]) ;;
  data <- lift (get res "data") ;;
  ret (toConnectedNoShowPolicy data).

(** [params] has no default here: an omitted bag spreads to nothing. *)
Definition getAgeCategories (hotelId params : value) : M value :=
  res <- http_get "/settings/v1/age-categories"
           (obj [("params", spread params [("propertyId", hotelId)])]) ;;
  data <- lift (get res "data") ;;
  acs <- lift (get data "ageCategories") ;;
  mapped <- array_map acs (pure_cb toConnectedAgeCategory) ;;
  ret (obj [("data", mapped); ("count", prop data "count")]).

Definition getAgeCategoryById (ageCategoryId params : value) : M value :=
  res <- http_get ("/settings/v1/age-categories/" +:+ to_string ageCategoryId)
           (obj [("params", spread params [])]) ;;
  data <- lift (get res "data") ;;
  ret (toConnectedAgeCategory data).

Definition getServices (hotelId params : value) : M value :=
  let params := default_to (obj []) params in
  res <- http_get "/rateplan/v1/services"
           (obj [("params", spread params [("propertyId", hotelId)])]) ;;
  data <- lift (get res "data") ;;
  ss <- lift (get data "services") ;;
  mapped <- array_map ss (pure_cb toConnectedService) ;;
  ret (obj [("data", mapped); ("count", prop data "count")]).

(** [params] is declared and defaulted but never read. *)
Definition getServiceById (serviceId params : value) : M value :=
  let params := default_to (obj []) params in
  res <- http_get ("/rateplan/v1/services/" +:+ to_string serviceId)
           VUndefined ;;
  data <- lift (get res "data") ;;
  ret (toConnectedService data).

(** The callback of [data.promoCodes.map] in [getPromoCodes]. *)
Definition promo_code_cb (pc : value) : M value :=
  code <- lift (get pc "code") ;;
  let ids := prop pc "relatedRateplanIds" in
  ret (obj [("code", code);
            ("related_rateplan_ids", if truthy ids then ids else VArr [])]).

(** The request carries [propertyId] alone; [params] is declared and
    defaulted but never read. *)
Definition getPromoCodes (hotelId params : value) : M value :=
  let params := default_to (obj []) params in
  res <- http_get "/rateplan/v1/promo-codes/codes"
           (obj [("params", obj [("propertyId", hotelId)])]) ;;
  data <- lift (get res "data") ;;
  pcs <- lift (get data "promoCodes") ;;
  promoCodes <- array_map pcs promo_code_cb ;;
  ret (obj [("data", promoCodes); ("count", prop data "count")]).

End Adaptor.
End ApaleoConnectAdaptor.

(** ** The method table

    The class has nine list methods and seven by-id methods, each
    written out on its own.  The tables below name them so that a
    statement can range over all of them. *)

Import ApaleoConnectAdaptor.

Inductive list_method : Type :=
| Hotels | RoomTypes | RatePlans | Rates | CancellationPolicies
| NoShowPolicies | AgeCategories | Services | PromoCodes.

Inductive single_method : Type :=
| HotelById | RoomTypeById | RatePlanById | CancellationPolicyById
| NoShowPolicyById | AgeCategoryById | ServiceById.

(** What the callback of [getPromoCodes] returns on an element it can
    read. *)
Definition promo_convert (pc : value) : value :=
  let ids := prop pc "relatedRateplanIds" in
  obj [("code", prop pc "code");
       ("related_rateplan_ids", if truthy ids then ids else VArr [])].

Section Table.
Context `{Mappers} `{Engine}.

(** [arg] is the first argument: the hotel or property identifier, the
    rate plan for [Rates]; [getHotels] takes the bag alone. *)
Definition invoke_list (m : list_method) (arg params : value) : M value :=
  match m with
  | Hotels => getHotels params
  | RoomTypes => getRoomsTypes arg params
  | RatePlans => getRatePlansByHotelId arg params
  | Rates => getRatesByRatePlan arg params
  | CancellationPolicies => getCancellationPolicies arg params
  | NoShowPolicies => getNoShowPolicies arg params
  | AgeCategories => getAgeCategories arg params
  | Services => getServices arg params
  | PromoCodes => getPromoCodes arg params
  end.

(** [getRoomTypeById] takes the identifier alone. *)
Definition invoke_single (m : single_method) (id params : value) : M value :=
  match m with
  | HotelById => getHotelById id params
  | RoomTypeById => getRoomTypeById id
  | RatePlanById => getRatePlanById id params
  | CancellationPolicyById => getCancellationPolicyById id params
  | NoShowPolicyById => getNoShowPolicyById id params
  | AgeCategoryById => getAgeCategoryById id params
  | ServiceById => getServiceById id params
  end.

(** The mapper each method imports from [./utils]; [getPromoCodes] has
    none and converts inline. *)
Definition list_mapper (m : list_method) : option (value -> value) :=
  match m with
  | Hotels => Some toConnectedHotel
  | RoomTypes => Some toConnectedRoomType
  | RatePlans => Some toConnectedRatePaln
  | Rates => Some convertToConnectedRate
  | CancellationPolicies => Some toConnectedCancellationPolicy
  | NoShowPolicies => Some toConnectedNoShowPolicy
  | AgeCategories => Some toConnectedAgeCategory
  | Services => Some toConnectedService
  | PromoCodes => None
  end.

Definition single_mapper (m : single_method) : value -> value :=
  match m with
  | HotelById => toConnectedHotel
  | RoomTypeById => toConnectedRoomType
  | RatePlanById => toConnectedRatePaln
  | CancellationPolicyById => toConnectedCancellationPolicy
  | NoShowPolicyById => toConnectedNoShowPolicy
  | AgeCategoryById => toConnectedAgeCategory
  | ServiceById => toConnectedService
  end.

Definition all_mappers : list (value -> value) :=
  [toConnectedHotel; toConnectedRoomType; toConnectedRatePaln;
   convertToConnectedRate; toConnectedCancellationPolicy;
   toConnectedNoShowPolicy; toConnectedAgeCategory; toConnectedService].

(** The page a list method returns for the vendor's page [items]. *)
Definition list_entries (m : list_method) (items : list value) : list value :=
  match list_mapper m with
  | Some f => f <$> items
  | None => promo_convert <$> items
  end.

End Table.

(** The field of the vendor's list payload that holds the page. *)
Definition items_key (m : list_method) : string :=
  match m with
  | Hotels => "properties"
  | RoomTypes => "unitGroups"
  | RatePlans => "ratePlans"
  | Rates => "rates"
  | CancellationPolicies => "cancellationPolicies"
  | NoShowPolicies => "noShowPolicies"
  | AgeCategories => "ageCategories"
  | Services => "services"
  | PromoCodes => "promoCodes"
  end.

(** The list methods whose first argument is a hotel or property
    identifier. *)
Definition scoped (m : list_method) : bool :=
  match m with
  | Hotels | Rates => false
  | _ => true
  end.

(** What a list method needs besides a list payload in order to return:
    [getRatesByRatePlan] a rate plan that carries a range,
    [getPromoCodes] elements it can read [code] from. *)
Definition accepts (m : list_method) (arg : value) (items : list value) : bool :=
  match m with
  | Rates => negb (nullish arg) && negb (nullish (prop arg "rates_range"))
  | PromoCodes => forallb (fun pc => negb (nullish pc)) items
  | _ => true
  end.

(** The one request each list method sends, as its source builds it. *)
Definition list_request `{Engine} (m : list_method) (arg params : value) : event :=
  let bag := default_to (obj []) params in
  match m with
  | Hotels =>
      HttpGet "/inventory/v1/properties" (obj [("params", bag)])
  | RoomTypes =>
      HttpGet "/inventory/v1/unit-groups"
        (obj [("params", spread bag [("propertyId", arg)])])
  | RatePlans =>
      HttpGet "/rateplan/v1/rate-plans"
        (obj [("params", spread bag [("propertyId", arg)])])
  | Rates =>
      HttpGet ("/rateplan/v1/rate-plans/" +:+ to_string (prop arg "id") +:+ "/rates")
        (obj [("params",
               spread bag [("from", prop (prop arg "rates_range") "from");
                           ("to", prop (prop arg "rates_range") "to")])])
  | CancellationPolicies =>
      HttpGet "/rateplan/v1/cancellation-policies"
        (obj [("params", spread bag [("propertyId", arg)])])
  | NoShowPolicies =>
      HttpGet "/rateplan/v1/no-show-policies"
        (obj [("params", spread bag [("propertyId", arg)])])
  | AgeCategories =>
      HttpGet "/settings/v1/age-categories"
        (obj [("params", spread params [("propertyId", arg)])])
  | Services =>
      HttpGet "/rateplan/v1/services"
        (obj [("params", spread bag [("propertyId", arg)])])
  | PromoCodes =>
      HttpGet "/rateplan/v1/promo-codes/codes"
        (obj [("params", obj [("propertyId", arg)])])
  end.

(** A credential the constructor's test [!c] rejects, among the values
    the option type [string | null] (or an omitted field) allows. *)
Definition blank (v : value) : bool :=
  match v with
  | VUndefined | VNull | VStr "" => true
  | _ => false
  end.

(** The canonical promo code of a vendor element: [code] as it is, the
    related rate plans when the vendor sends the array, the empty array
    otherwise. *)
Definition promo_entry (pc : value) : value :=
  obj [("code", prop pc "code");
       ("related_rateplan_ids",
        match prop pc "relatedRateplanIds" with
        | VArr ids => VArr ids
        | _ => VArr []
        end)].

(** A well-formed vendor promo code: an object whose optional
    [relatedRateplanIds] is an array, [null] or absent. *)
Definition promo_well_formed (pc : value) : bool :=
  match pc with
  | VObj _ =>
      match prop pc "relatedRateplanIds" with
      | VArr _ | VNull | VUndefined => true
      | _ => false
      end
  | _ => false
  end.

(** The response object the driver resolves with, reduced to the field
    the class reads. *)
Definition response (payload : value) : value := obj [("data", payload)].

(** An outside that answers every call with the same response. *)
Definition vendor (payload : value) : env := fun _ => Returned (response payload).

(** A computation is silent when it leaves the log of calls as it found
    it, whatever the outside would answer. *)
Definition silent {A} (m : M A) : Prop := forall w log, (m w log).2 = log.

(** The two sides of the comparison [data.length <= count] on a list
    result. *)
Definition data_length (r : value) : option nat :=
  match prop r "data" with
  | VArr l => Some (length l)
  | _ => None
  end.

Definition reported_count (r : value) : option Z :=
  match prop r "count" with
  | VNum c => Some c
  | _ => None
  end.

(** ** Every call of a resource method *)

(** One invocation of a resource method, with its arguments. *)
Inductive call : Type :=
| Account
| ListOf (m : list_method) (arg params : value)
| ById (m : single_method) (id params : value).

(** The one request each by-id method sends, as its source builds it:
    the identifier printed into the path; the bag under [params] for
    four of them, no config for the other three. *)
Definition single_request `{Engine} (m : single_method) (id params : value) : event :=
  match m with
  | HotelById =>
      HttpGet ("/inventory/v1/properties/" +:+ to_string id)
        (obj [("params", default_to (obj []) params)])
  | RoomTypeById =>
      HttpGet ("/inventory/v1/unit-groups/" +:+ to_string id) VUndefined
  | RatePlanById =>
      HttpGet ("/rateplan/v1/rate-plans/" +:+ to_string id)
        (obj [("params", params)])
  | CancellationPolicyById =>
      HttpGet ("/rateplan/v1/cancellation-policies/" +:+ to_string id) VUndefined
  | NoShowPolicyById =>
      HttpGet ("/rateplan/v1/no-show-policies/" +:+ to_string id)
        (obj [("params", default_to (obj []) params)])
  | AgeCategoryById =>
      HttpGet ("/settings/v1/age-categories/" +:+ to_string id)
        (obj [("params", spread params [])])
  | ServiceById =>
      HttpGet ("/rateplan/v1/services/" +:+ to_string id) VUndefined
  end.

Definition invoke `{Mappers} `{Engine} (c : call) : M value :=
  match c with
  | Account => getAccount
  | ListOf m arg params => invoke_list m arg params
  | ById m id params => invoke_single m id params
  end.

Definition request_of `{Engine} (c : call) : event :=
  match c with
  | Account => HttpGet "/account/v1/accounts/current" VUndefined
  | ListOf m arg params => list_request m arg params
  | ById m id params => single_request m id params
  end.

(** Whether the arguments let the method build its request:
    [getRatesByRatePlan] reads [id] and the range off the rate plan
    first, the others build theirs from anything. *)
Definition ready (c : call) : bool :=
  match c with
  | ListOf Rates arg _ =>
      negb (nullish arg) && negb (nullish (prop arg "rates_range"))
  | _ => true
  end.

(** The property a list method reads first off the payload. *)
Definition first_read (m : list_method) : string :=
  match m with
  | RoomTypes => "count"
  | _ => items_key m
  end.

(** The keys a list method writes into the query itself, after the
    caller's bag. *)
Definition own_keys (m : list_method) : list string :=
  match m with
  | Hotels => []
  | Rates => ["from"; "to"]
  | _ => ["propertyId"]
  end.

(** The list methods that copy the caller's bag into the query. *)
Definition forwards_bag (m : list_method) : bool :=
  match m with
  | PromoCodes => false
  | _ => true
  end.

Definition is_array (v : value) : bool :=
  match v with
  | VArr _ => true
  | _ => false
  end.

(** The calls a constructor may make: to the base class and to the
    token store, none to the network. *)
Definition construction_call (ev : event) : bool :=
  match ev with
  | Super _ | SetTokenStore _ => true
  | HttpGet _ _ | GenerateAccessToken _ => false
  end.

(** What the constructor hands to [super] and to the refresh closure,
    read off the options. *)
Definition super_options `{Config} (options : value) : value :=
  obj [("refreshToken", default_to (VStr "") (prop options "refresh_token"));
       ("accessToken",
        if truthy (prop options "access_token")
        then prop options "access_token" else VStr "");
       ("baseUrl", VStr API_BASE_URL)].

Definition token_request (options : value) : value :=
  obj [("client_secret", default_to VNull (prop options "client_secret"));
       ("client_id", default_to VNull (prop options "client_id"));
       ("redirect_uri", default_to (VStr "") (prop options "redirect_uri"));
       ("refresh", default_to (VStr "") (prop options "refresh_token"))].

(** ** Sample data *)

Module Sample.

(** Mappers that wrap the vendor value under a tag of their own. *)
Definition tag (t : string) : value -> value := fun v => obj [(t, v)].

Definition mappers : Mappers := {|
  toConnectedHotel := tag "hotel";
  toConnectedRoomType := tag "room_type";
  toConnectedRatePaln := tag "rate_plan";
  convertToConnectedRate := tag "rate";
  toConnectedCancellationPolicy := tag "cancellation_policy";
  toConnectedNoShowPolicy := tag "no_show_policy";
  toConnectedAgeCategory := tag "age_category";
  toConnectedService := tag "service"
|}.

Definition config : Config := {| API_BASE_URL := "https://api.apaleo.com" |}.

(** An engine that prints every integral number with all its digits,
    as the real one does on the safe integers.  The samples use string
    identifiers: none of them prints a number. *)
Definition engine : Engine := {|
  number_to_string := pretty;
  safe_integer_digits := fun _ _ => eq_refl
|}.

Definition planA : value := obj [("id", VStr "A")].
Definition planB : value := obj [("id", VStr "B")].

Definition rate_plan_page : value :=
  obj [("count", VNum 5); ("ratePlans", VArr [planA; planB])].

(** A vendor page that reports fewer entries than it sends. *)
Definition short_count_page : value :=
  obj [("count", VNum 1);
       ("properties", VArr [obj [("id", VStr "P1")]; obj [("id", VStr "P2")]])].

Definition account : value := obj [("id", VStr "ACC"); ("name", VStr "Cord")].

Definition promo_page : value :=
  obj [("count", VNum 2);
       ("promoCodes",
        VArr [obj [("code", VStr "SUMMER");
                   ("relatedRateplanIds", VArr [VStr "RP1"; VStr "RP2"])];
              obj [("code", VStr "WINTER")];
              obj [("code", VStr "SPRING"); ("relatedRateplanIds", VNull)]])].

Definition ranged_plan : value :=
  obj [("id", VStr "RP1");
       ("rates_range",
        obj [("from", VStr "2021-01-01"); ("to", VStr "2021-12-31")])].

Definition plan_without_range : value := obj [("id", VStr "RP1")].

End Sample.

Module Fixture.

Definition options : value :=
  obj [("client_id", VStr "id"); ("client_secret", VStr "secret");
       ("refresh_token", VStr "rt-1"); ("redirect_uri", VStr "https://cb");
       ("tokenStore", obj [("kind", VStr "file")])].

(** An outside whose requests are all rejected with [reason]. *)
Definition failing (reason : value) : env := fun _ => Thrown (Rejected reason).

(** An outside that resolves every call with [res] itself. *)
Definition resolving (res : value) : env := fun _ => Returned res.

Definition filters : gmap string value :=
  <["pageSize" := VNum 10]> (<["propertyId" := VStr "OTHER"]> ∅).

Definition page_with_hole : value :=
  obj [("count", VNum 2);
       ("promoCodes", VArr [obj [("code", VStr "SUMMER")]; VNull])].

(** Promo codes whose [relatedRateplanIds] is a string, [0], absent. *)
Definition loose_promo_page : value :=
  obj [("count", VNum 3);
       ("promoCodes",
        VArr [obj [("code", VStr "A"); ("relatedRateplanIds", VStr "RP1")];
              obj [("code", VStr "B"); ("relatedRateplanIds", VNum 0)];
              obj [("code", VStr "C")]])].

End Fixture.

(** ** Reasoning about runs *)

Section Runs.

Lemma bind_returned {A B} (m : M A) (k : A -> M B) w log a log' :
  m w log = (Returned a, log') -> bind m k w log = k a w log'.
Proof. unfold bind. intros ->. reflexivity. Qed.

Lemma bind_thrown {A B} (m : M A) (k : A -> M B) w log e log' :
  m w log = (Thrown e, log') -> bind m k w log = (Thrown e, log').
Proof. unfold bind. intros ->. reflexivity. Qed.

Lemma http_get_answer url config w log r :
  w (HttpGet url config) = r ->
  http_get url config w log = (r, (log ++ [HttpGet url config])%list).
Proof. unfold http_get, perform. intros ->. reflexivity. Qed.

(** A pure callback maps the whole array and calls nobody. *)
Lemma map_elements_pure (f : value -> value) l w log :
  map_elements (pure_cb f) l w log = (Returned (f <$> l), log).
Proof.
  revert log. induction l as [|x l IH]; intros log; simpl.
  - reflexivity.
  - unfold bind at 1. unfold pure_cb at 1, ret at 1.
    unfold bind at 1. rewrite IH. reflexivity.
Qed.

Lemma array_map_pure (f : value -> value) l w log :
  array_map (VArr l) (pure_cb f) w log = (Returned (VArr (f <$> l)), log).
Proof.
  unfold array_map.
  rewrite (bind_returned _ _ _ _ _ _ (map_elements_pure f l w log)).
  reflexivity.
Qed.

(** Reading a property that holds an array: the holder is an object. *)
Lemma prop_array_not_nullish v k l : prop v k = VArr l -> nullish v = false.
Proof. destruct v; simpl; congruence. Qed.

Lemma get_data res payload :
  get res "data" = Returned payload -> nullish res = false /\ prop res "data" = payload.
Proof. unfold get. destruct (nullish res); [discriminate|]. intros [= <-]. done. Qed.

(** A safe integer in a path prints its decimal digits. *)
Lemma to_string_safe_integer `{Engine} n :
  Z.abs n <= 2 ^ 53 -> to_string (VNum n) = pretty n.
Proof. apply safe_integer_digits. Qed.

Lemma get_prop v k : nullish v = false -> get v k = Returned (prop v k).
Proof. unfold get. intros ->. reflexivity. Qed.

(** Fields of small object literals. *)
Lemma prop_obj_last base fs k v :
  prop (obj_from base (fs ++ [(k, v)])) k = v.
Proof.
  unfold obj_from, prop. rewrite foldl_app. simpl.
  rewrite lookup_insert_eq. reflexivity.
Qed.

Lemma obj_swap k1 v1 k2 v2 :
  k1 <> k2 -> obj [(k1, v1); (k2, v2)] = obj [(k2, v2); (k1, v1)].
Proof.
  intros Hne. unfold obj, obj_from. simpl. f_equal.
  apply insert_insert_ne. congruence.
Qed.

End Runs.

(** ** Construction *)

Section Construction.
Context `{Mappers} `{Config}.

Lemma blank_not_truthy v : blank v = true -> truthy (default_to VNull v) = false.
Proof.
  destruct v as [| | | |s| |]; simpl; try discriminate; try reflexivity.
  destruct s; [reflexivity | discriminate].
Qed.

(** C1. Constructing the adaptor from options whose [client_id] or
    [client_secret] is [null], the empty string or left out throws
    [Error('Apaleo client credentials missing')] and the log of calls is
    empty: the base constructor is not reached, no request and no token
    exchange is issued. *)
Theorem constructor_fails_fast (options : value) (w : env) :
  nullish options = false ->
  blank (prop options "client_id") || blank (prop options "client_secret") = true ->
  run (constructor options) w
  = (Thrown (Error "Apaleo client credentials missing"), []).
Proof.
  intros Hobj Hblank. unfold run, constructor.
  rewrite (bind_returned _ _ _ _ (prop options "client_id") []).
  2: { unfold lift. by rewrite get_prop. }
  apply orb_true_iff in Hblank as [Hid | Hsecret].
  - rewrite (blank_not_truthy _ Hid). reflexivity.
  - rewrite (blank_not_truthy _ Hsecret), orb_true_r. reflexivity.
Qed.

(** With both credentials the base constructor is reached; the refresh
    closure it receives asks the token endpoint once per call, with the
    refresh token of the options whatever [token] it is given. *)
Lemma refresh_closure_calls cs ci uri rt token w :
  calls (refresh_closure cs ci uri rt token) w
  = [GenerateAccessToken
       (obj [("client_secret", cs); ("client_id", ci);
             ("redirect_uri", uri); ("refresh", rt)])].
Proof.
  unfold calls, run, refresh_closure, bind, perform. simpl.
  destruct (w _) as [data|e]; [|reflexivity].
  by destruct (negb (truthy data)).
Qed.

End Construction.

Example constructor_accepts_credentials :
  calls (@constructor Sample.config
           (obj [("client_id", VStr "id"); ("client_secret", VStr "secret");
                 ("refresh_token", VStr "rt-1")]))
        (vendor VNull)
  = [Super (obj [("refreshToken", VStr "rt-1"); ("accessToken", VStr "");
                 ("baseUrl", VStr "https://api.apaleo.com")])].
Proof. reflexivity. Qed.

(** The options [{client_id: 'id', client_secret: null}] are rejected. *)
Lemma constructor_fails_fast_witness :
  run (@constructor Sample.config
         (obj [("client_id", VStr "id"); ("client_secret", VNull)]))
      (vendor VNull)
  = (Thrown (Error "Apaleo client credentials missing"), []).
Proof.
  apply (@constructor_fails_fast Sample.config); reflexivity.
Defined.

(** ** Calls that reach nobody *)

Section Silent.

Lemma silent_ret {A} (a : A) : silent (ret a).
Proof. intros w log. reflexivity. Qed.

Lemma silent_throw {A} e : silent (@throw A e).
Proof. intros w log. reflexivity. Qed.

Lemma silent_lift {A} (r : outcome A) : silent (lift r).
Proof. intros w log. reflexivity. Qed.

Lemma silent_bind {A B} (m : M A) (k : A -> M B) :
  silent m -> (forall a, silent (k a)) -> silent (bind m k).
Proof.
  intros Hm Hk w log. unfold bind.
  specialize (Hm w log). destruct (m w log) as [[a|e] log']; simpl in Hm; subst.
  - apply Hk.
  - reflexivity.
Qed.

Lemma silent_map_elements f l :
  (forall x, silent (f x)) -> silent (map_elements f l).
Proof.
  intros Hf. induction l as [|x l IH]; simpl.
  - apply silent_ret.
  - apply silent_bind; [apply Hf|]. intros y.
    apply silent_bind; [apply IH|]. intros ys. apply silent_ret.
Qed.

Lemma silent_array_map arr f :
  (forall x, silent (f x)) -> silent (array_map arr f).
Proof.
  intros Hf. destruct arr; simpl; try apply silent_throw.
  apply silent_bind; [by apply silent_map_elements|].
  intros ys. apply silent_ret.
Qed.

Lemma silent_pure_cb f x : silent (pure_cb f x).
Proof. apply silent_ret. Qed.

Lemma silent_promo_code_cb pc : silent (promo_code_cb pc).
Proof.
  unfold promo_code_cb. apply silent_bind; [apply silent_lift|].
  intros code. apply silent_ret.
Qed.

(** A request followed by silent work logs the request alone. *)
Lemma calls_request_then {A} url config (k : value -> M A) w :
  (forall res, silent (k res)) ->
  calls (bind (http_get url config) k) w = [HttpGet url config].
Proof.
  intros Hk. unfold calls, run, bind, http_get, perform. simpl.
  destruct (w (HttpGet url config)) as [res|e]; [apply Hk | reflexivity].
Qed.

End Silent.

Create HintDb silent.
#[export] Hint Resolve silent_ret silent_throw silent_lift silent_pure_cb
  silent_promo_code_cb : silent.

(** Silence of a method's tail, by its structure. *)
Ltac silence :=
  repeat (cbv beta zeta;
    lazymatch goal with
    | |- forall _, _ => intro
    | |- silent (bind _ _) => apply silent_bind
    | |- silent (array_map _ _) => apply silent_array_map
    | |- silent _ => solve [auto with silent]
    end).

(** ** List methods *)

Section Lists.
Context `{Mappers} `{Engine}.

(** One step of a run: a request answered by the hypothesis at hand, a
    property read from a value known not to be nullish, a mapper run
    over an array. *)
Ltac answer Hw :=
  unfold http_get, perform, bind at 1; rewrite Hw; cbv beta iota.

Ltac read Hnn :=
  unfold bind at 1, lift at 1; rewrite ?(get_prop _ _ Hnn); cbv beta iota.

Ltac map_over Hitems :=
  unfold bind at 1; rewrite ?Hitems, array_map_pure; cbv beta iota.

(** The inline callback converts every element it can read. *)
Lemma map_elements_promo l w log :
  forallb (fun pc => negb (nullish pc)) l = true ->
  map_elements promo_code_cb l w log = (Returned (promo_convert <$> l), log).
Proof.
  revert log. induction l as [|pc l IH]; intros log Hall; simpl.
  - reflexivity.
  - simpl in Hall. apply andb_true_iff in Hall as [Hpc Hall].
    apply negb_true_iff in Hpc.
    unfold bind at 1. unfold promo_code_cb at 1.
    read Hpc. unfold ret at 1.
    unfold bind at 1. rewrite (IH _ Hall). reflexivity.
Qed.

(** Every list method, on a vendor page it accepts, sends its one
    request and returns the converted page with the vendor's count. *)
Lemma invoke_list_run (m : list_method) (arg params : value) (w : env)
    (res payload : value) (items : list value) :
  w (list_request m arg params) = Returned res ->
  get res "data" = Returned payload ->
  prop payload (items_key m) = VArr items ->
  accepts m arg items = true ->
  run (invoke_list m arg params) w
  = (Returned (obj [("data", VArr (list_entries m items));
                    ("count", prop payload "count")]),
     [list_request m arg params]).
Proof.
  intros Hw Hres Hitems Hacc.
  apply get_data in Hres as [Hnn <-].
  pose proof (prop_array_not_nullish _ _ _ Hitems) as Hpayload.
  destruct m; unfold list_request in Hw; simpl in Hitems;
    unfold run, invoke_list, list_entries, list_mapper.
  - unfold getHotels.
    answer Hw. read Hnn. read Hpayload. map_over Hitems.
    read Hnn. read Hpayload. reflexivity.
  - unfold getRoomsTypes.
    answer Hw. read Hnn. read Hpayload. map_over Hitems.
    unfold ret. by rewrite obj_swap.
  - unfold getRatePlansByHotelId.
    answer Hw. read Hnn. read Hpayload. map_over Hitems. reflexivity.
  - simpl in Hacc. apply andb_true_iff in Hacc as [Harg Hrange].
    apply negb_true_iff in Harg, Hrange.
    unfold getRatesByRatePlan.
    read Harg. read Hrange. read Hrange.
    answer Hw. read Hnn. read Hpayload. map_over Hitems.
    unfold ret. by rewrite obj_swap.
  - unfold getCancellationPolicies.
    answer Hw. read Hnn. read Hpayload. map_over Hitems. reflexivity.
  - unfold getNoShowPolicies.
    answer Hw. read Hnn. read Hpayload. map_over Hitems. reflexivity.
  - unfold getAgeCategories.
    answer Hw. read Hnn. read Hpayload. map_over Hitems. reflexivity.
  - unfold getServices.
    answer Hw. read Hnn. read Hpayload. map_over Hitems. reflexivity.
  - simpl in Hacc. unfold getPromoCodes.
    answer Hw. read Hnn. read Hpayload.
    unfold bind at 1. rewrite Hitems. unfold array_map, bind at 1.
    rewrite (map_elements_promo _ _ _ Hacc). reflexivity.
Qed.

Lemma prop_obj_single k v : prop (obj [(k, v)]) k = v.
Proof. apply (prop_obj_last ∅ []). Qed.

Lemma prop_spread_single bag k v : prop (spread bag [(k, v)]) k = v.
Proof. apply (prop_obj_last (own_props bag) []). Qed.

Lemma prop_spread_from_to bag f t :
  prop (spread bag [("from", f); ("to", t)]) "from" = f
  /\ prop (spread bag [("from", f); ("to", t)]) "to" = t.
Proof.
  unfold spread, obj_from, prop. simpl. split.
  - rewrite lookup_insert_ne by done. by rewrite lookup_insert_eq.
  - by rewrite lookup_insert_eq.
Qed.

(** Whatever the vendor answers, a list method that takes an identifier
    sends its one request and nothing else. *)
Lemma invoke_list_calls (m : list_method) (arg params : value) (w : env) :
  scoped m = true ->
  calls (invoke_list m arg params) w = [list_request m arg params].
Proof.
  intros Hscoped.
  destruct m; try discriminate Hscoped; unfold invoke_list, list_request;
    apply calls_request_then; silence.
Qed.

(** A rate plan that carries a range: the request goes out, alone. *)
Lemma getRatesByRatePlan_calls (ratePlan params : value) (w : env) :
  nullish ratePlan = false ->
  nullish (prop ratePlan "rates_range") = false ->
  calls (getRatesByRatePlan ratePlan params) w
  = [list_request Rates ratePlan params].
Proof.
  intros Hplan Hrange. unfold calls, run, getRatesByRatePlan.
  read Hplan. read Hrange. read Hrange.
  apply calls_request_then. silence.
Qed.

(** Every by-id method returns its mapper's image of the payload. *)
Lemma invoke_single_result (m : single_method) (id params : value) (w : env)
    (res payload : value) :
  (forall url config, w (HttpGet url config) = Returned res) ->
  get res "data" = Returned payload ->
  result (invoke_single m id params) w = Returned (single_mapper m payload).
Proof.
  intros Hw Hres. apply get_data in Hres as [Hnn <-].
  destruct m; unfold result, run, invoke_single, single_mapper;
    [ unfold getHotelById | unfold getRoomTypeById | unfold getRatePlanById
    | unfold getCancellationPolicyById | unfold getNoShowPolicyById
    | unfold getAgeCategoryById | unfold getServiceById ];
    answer Hw; read Hnn; reflexivity.
Qed.

Lemma getAccount_result (w : env) (res payload : value) :
  w (HttpGet "/account/v1/accounts/current" VUndefined) = Returned res ->
  get res "data" = Returned payload ->
  result getAccount w = Returned payload.
Proof.
  intros Hw Hres. unfold result, run, getAccount.
  answer Hw. unfold lift. by rewrite Hres.
Qed.

(** On a well-formed element the inline conversion is [promo_entry]. *)
Lemma promo_convert_well_formed pc :
  promo_well_formed pc = true -> promo_convert pc = promo_entry pc.
Proof.
  unfold promo_well_formed, promo_convert, promo_entry.
  destruct pc; try discriminate.
  destruct (prop (VObj o) "relatedRateplanIds"); try discriminate; reflexivity.
Qed.

Lemma promo_well_formed_readable pc :
  promo_well_formed pc = true -> negb (nullish pc) = true.
Proof. destruct pc; try discriminate; reflexivity. Qed.

End Lists.

(** ** Properties of the resource methods *)

Section Properties.
Context `{Mappers} `{Engine}.

(** C3. [getRatePlansByHotelId] answers a vendor payload
    [{count, ratePlans}] with [count] as the vendor sent it, not
    recomputed from the page, and [data] the rate plans mapped one by
    one, in order, by [toConnectedRatePaln]; it sends the one request
    for the page. *)
Theorem getRatePlansByHotelId_result
    (hotelId params : value) (w : env) (res payload : value)
    (plans : list value) :
  let request :=
    HttpGet "/rateplan/v1/rate-plans"
      (obj [("params",
             spread (default_to (obj []) params) [("propertyId", hotelId)])]) in
  w request = Returned res ->
  get res "data" = Returned payload ->
  prop payload "ratePlans" = VArr plans ->
  run (getRatePlansByHotelId hotelId params) w
  = (Returned (obj [("data", VArr (toConnectedRatePaln <$> plans));
                    ("count", prop payload "count")]),
     [request]).
Proof.
  intros request Hw Hres Hplans.
  exact (invoke_list_run RatePlans hotelId params w res payload plans
           Hw Hres Hplans eq_refl).
Qed.

(** C4, amended. For every list method and every vendor page it
    accepts, the result's [count] is the vendor's [count] as sent and
    [data] has as many entries as the vendor's page; so [data.length]
    is at most [count] exactly when the vendor's own page is. *)
Theorem list_count_verbatim
    (m : list_method) (arg params : value) (w : env) (res payload : value)
    (items : list value) :
  w (list_request m arg params) = Returned res ->
  get res "data" = Returned payload ->
  prop payload (items_key m) = VArr items ->
  accepts m arg items = true ->
  exists entries,
    result (invoke_list m arg params) w
    = Returned (obj [("data", VArr entries); ("count", prop payload "count")])
    /\ length entries = length items
    /\ forall c, prop payload "count" = VNum c ->
         (Z.of_nat (length entries) <= c <-> Z.of_nat (length items) <= c).
Proof.
  intros Hw Hres Hitems Hacc.
  exists (list_entries m items). split; [|split].
  - unfold result.
    by rewrite (invoke_list_run m arg params w res payload items).
  - unfold list_entries. destruct (list_mapper m); apply length_fmap.
  - intros c _. unfold list_entries.
    destruct (list_mapper m); by rewrite length_fmap.
Qed.

(** C7. On a vendor page whose promo codes are well formed,
    [getPromoCodes] returns one entry per element, in order, whose
    [related_rateplan_ids] is the vendor's [relatedRateplanIds] when the
    array is there and the empty array when the field is absent or
    [null]; it does not throw. *)
Theorem getPromoCodes_entries
    (hotelId params : value) (w : env) (res payload : value)
    (items : list value) :
  let request :=
    HttpGet "/rateplan/v1/promo-codes/codes"
      (obj [("params", obj [("propertyId", hotelId)])]) in
  w request = Returned res ->
  get res "data" = Returned payload ->
  prop payload "promoCodes" = VArr items ->
  forallb promo_well_formed items = true ->
  run (getPromoCodes hotelId params) w
  = (Returned (obj [("data", VArr (promo_entry <$> items));
                    ("count", prop payload "count")]),
     [request]).
Proof.
  intros request Hw Hres Hitems Hwf.
  assert (Hread : accepts PromoCodes hotelId items = true).
  { simpl. apply forallb_forall. intros pc Hin.
    apply promo_well_formed_readable.
    by apply (proj1 (forallb_forall _ _) Hwf). }
  assert (Hconv : promo_convert <$> items = promo_entry <$> items).
  { apply list_fmap_ext. intros i pc Hi.
    apply promo_convert_well_formed.
    apply (proj1 (forallb_forall _ _) Hwf).
    apply list_elem_of_In. by eapply list_elem_of_lookup_2. }
  rewrite <- Hconv.
  exact (invoke_list_run PromoCodes hotelId params w res payload items
           Hw Hres Hitems Hread).
Qed.

(** C5. [getRatesByRatePlan] takes [from] and [to] of its request from
    the rate plan's [rates_range], over anything the caller's bag says;
    on a rate plan without a [rates_range] (absent or [null]) the call
    fails with the TypeError of reading [from], and no request has been
    sent. *)
Theorem getRatesByRatePlan_range (ratePlan params : value) (w : env) :
  nullish ratePlan = false ->
  (nullish (prop ratePlan "rates_range") = false ->
   exists url config,
     calls (getRatesByRatePlan ratePlan params) w = [HttpGet url config]
     /\ prop (prop config "params") "from"
        = prop (prop ratePlan "rates_range") "from"
     /\ prop (prop config "params") "to"
        = prop (prop ratePlan "rates_range") "to")
  /\ (nullish (prop ratePlan "rates_range") = true ->
      run (getRatesByRatePlan ratePlan params) w
      = (Thrown (TypeError "from"), [])).
Proof.
  intros Hplan. split; intros Hrange.
  - eexists _, _. split; [by apply getRatesByRatePlan_calls|].
    rewrite prop_obj_single. apply prop_spread_from_to.
  - unfold run, getRatesByRatePlan.
    unfold bind at 1, lift at 1. rewrite (get_prop _ _ Hplan). cbv beta iota.
    unfold bind at 1, lift at 1, get. rewrite Hrange. reflexivity.
Qed.

(** C6, on the code. [getPromoCodes('H1', {pageSize: 10})] sends
    [propertyId] alone: the caller's [pageSize] is not in the request.
    [getServices], on the same arguments, sends both. *)
Theorem getPromoCodes_drops_params (w : env) :
  let bag := obj [("pageSize", VNum 10)] in
  calls (getPromoCodes (VStr "H1") bag) w
  = [HttpGet "/rateplan/v1/promo-codes/codes"
       (obj [("params", obj [("propertyId", VStr "H1")])])]
  /\ prop (obj [("propertyId", VStr "H1")]) "pageSize" = VUndefined
  /\ calls (getServices (VStr "H1") bag) w
     = [HttpGet "/rateplan/v1/services"
          (obj [("params",
                 obj [("pageSize", VNum 10); ("propertyId", VStr "H1")])])].
Proof.
  intros bag. split; [|split].
  - exact (invoke_list_calls PromoCodes (VStr "H1") bag w eq_refl).
  - reflexivity.
  - exact (invoke_list_calls Services (VStr "H1") bag w eq_refl).
Qed.

(** C9. Every list method that takes a hotel or property identifier
    sends one request whose [propertyId] is that identifier, whatever
    the caller's bag holds under [propertyId]. *)
Theorem scoping_parameter_wins
    (m : list_method) (hotelId params : value) (w : env) :
  scoped m = true ->
  exists url config,
    calls (invoke_list m hotelId params) w = [HttpGet url config]
    /\ prop (prop config "params") "propertyId" = hotelId.
Proof.
  intros Hscoped. rewrite (invoke_list_calls m hotelId params w Hscoped).
  destruct m; try discriminate Hscoped; unfold list_request;
    eexists _, _; (split; [reflexivity|]);
    rewrite prop_obj_single;
    first [apply prop_spread_single | apply prop_obj_single].
Qed.

(** C10. [getServiceById] and [getCancellationPolicyById] do not read
    [params]: two calls that differ in it alone are the same
    computation, which sends the path without a config and returns the
    mapper's image of the answer. *)
Theorem by_id_ignores_params (id p1 p2 : value) (w : env) :
  (getServiceById id p1 = getServiceById id p2
   /\ calls (getServiceById id p1) w
      = [HttpGet ("/rateplan/v1/services/" +:+ to_string id) VUndefined])
  /\ (getCancellationPolicyById id p1 = getCancellationPolicyById id p2
      /\ calls (getCancellationPolicyById id p1) w
         = [HttpGet ("/rateplan/v1/cancellation-policies/" +:+ to_string id)
              VUndefined]).
Proof.
  repeat split; try reflexivity;
    [unfold getServiceById | unfold getCancellationPolicyById];
    apply calls_request_then; silence.
Qed.

End Properties.

(** ** The properties on sample data *)

(** The scenario of the spec: [{count: 5, ratePlans: [planA, planB]}]
    gives [{count: 5, data: [canonicalA, canonicalB]}]. *)
Lemma getRatePlansByHotelId_result_witness :
  run (@getRatePlansByHotelId Sample.mappers (VStr "HOTEL-1") (obj []))
      (vendor Sample.rate_plan_page)
  = (Returned
       (obj [("count", VNum 5);
             ("data", VArr [@toConnectedRatePaln Sample.mappers Sample.planA;
                            @toConnectedRatePaln Sample.mappers Sample.planB])]),
     [HttpGet "/rateplan/v1/rate-plans"
        (obj [("params", obj [("propertyId", VStr "HOTEL-1")])])]).
Proof.
  rewrite (@getRatePlansByHotelId_result Sample.mappers Sample.engine
             (VStr "HOTEL-1") (obj []) (vendor Sample.rate_plan_page)
             (response Sample.rate_plan_page) Sample.rate_plan_page
             [Sample.planA; Sample.planB]) by reflexivity.
  reflexivity.
Defined.

(** C4 as stated fails: a vendor page [{count: 1, properties: [p1, p2]}]
    comes back from [getHotels] with two entries and a count of one. *)
Lemma getHotels_data_exceeds_count :
  exists r,
    result (@getHotels Sample.mappers (obj [])) (vendor Sample.short_count_page)
    = Returned r
    /\ data_length r = Some 2%nat
    /\ reported_count r = Some 1
    /\ ~ (Z.of_nat 2 <= 1).
Proof.
  eexists. split; [reflexivity|]. repeat split. lia.
Qed.

Lemma list_count_verbatim_witness :
  exists entries,
    result (@invoke_list Sample.mappers Sample.engine Hotels VUndefined (obj []))
           (vendor Sample.short_count_page)
    = Returned (obj [("data", VArr entries); ("count", VNum 1)])
    /\ length entries = 2%nat.
Proof.
  destruct (@list_count_verbatim Sample.mappers Sample.engine Hotels VUndefined (obj [])
              (vendor Sample.short_count_page)
              (response Sample.short_count_page) Sample.short_count_page
              [obj [("id", VStr "P1")]; obj [("id", VStr "P2")]]
              eq_refl eq_refl eq_refl eq_refl)
    as (entries & Hres & Hlen & _).
  exists entries. split; [exact Hres | exact Hlen].
Defined.

Lemma getRatesByRatePlan_range_witness :
  (exists url config,
     calls (@getRatesByRatePlan Sample.mappers Sample.engine Sample.ranged_plan
              (obj [("from", VStr "1999-01-01")]))
           (vendor VNull)
     = [HttpGet url config]
     /\ prop (prop config "params") "from" = VStr "2021-01-01"
     /\ prop (prop config "params") "to" = VStr "2021-12-31")
  /\ run (@getRatesByRatePlan Sample.mappers Sample.engine Sample.plan_without_range (obj []))
         (vendor VNull)
     = (Thrown (TypeError "from"), []).
Proof.
  split.
  - apply (proj1 (@getRatesByRatePlan_range Sample.mappers Sample.engine Sample.ranged_plan
                    (obj [("from", VStr "1999-01-01")]) (vendor VNull) eq_refl)).
    reflexivity.
  - apply (proj2 (@getRatesByRatePlan_range Sample.mappers Sample.engine
                    Sample.plan_without_range (obj []) (vendor VNull) eq_refl)).
    reflexivity.
Defined.

Lemma getPromoCodes_entries_witness :
  result (getPromoCodes (VStr "H1") VUndefined) (vendor Sample.promo_page)
  = Returned
      (obj [("count", VNum 2);
            ("data",
             VArr [obj [("code", VStr "SUMMER");
                        ("related_rateplan_ids", VArr [VStr "RP1"; VStr "RP2"])];
                   obj [("code", VStr "WINTER"); ("related_rateplan_ids", VArr [])];
                   obj [("code", VStr "SPRING"); ("related_rateplan_ids", VArr [])]])]).
Proof.
  unfold result.
  rewrite (@getPromoCodes_entries Sample.mappers Sample.engine (VStr "H1") VUndefined
             (vendor Sample.promo_page) (response Sample.promo_page)
             Sample.promo_page
             [obj [("code", VStr "SUMMER");
                   ("relatedRateplanIds", VArr [VStr "RP1"; VStr "RP2"])];
              obj [("code", VStr "WINTER")];
              obj [("code", VStr "SPRING"); ("relatedRateplanIds", VNull)]])
    by reflexivity.
  reflexivity.
Defined.

(** C8, on the code. [getAccount] hands back the vendor's account
    payload itself, under the return type of the canonical account: no
    mapper runs, and none of the mappers produces that value from the
    payload.  The fifteen other methods convert what they return. *)
Lemma getAccount_returns_vendor_payload :
  result getAccount (vendor Sample.account) = Returned Sample.account
  /\ Forall (fun f : value -> value => f Sample.account <> Sample.account)
        (@all_mappers Sample.mappers).
Proof.
  split; [reflexivity|].
  repeat constructor; intros Heq;
    apply (f_equal (fun v => prop v "id")) in Heq; vm_compute in Heq;
    discriminate Heq.
Qed.

Lemma scoping_parameter_wins_witness :
  exists url config,
    calls (@invoke_list Sample.mappers Sample.engine Services (VStr "H1")
             (obj [("propertyId", VStr "OTHER")]))
          (vendor VNull)
    = [HttpGet url config]
    /\ prop (prop config "params") "propertyId" = VStr "H1".
Proof.
  apply (@scoping_parameter_wins Sample.mappers Sample.engine Services); reflexivity.
Defined.

(** ** Further properties: construction *)

Ltac answered Hw :=
  unfold http_get, perform, bind at 1; rewrite Hw; cbv beta iota.

Ltac reading Hnn :=
  unfold bind at 1, lift at 1; rewrite ?(get_prop _ _ Hnn); cbv beta iota.

Section MoreConstruction.
Context `{Config}.

Lemma truthy_default_null v : truthy (default_to VNull v) = truthy v.
Proof. by destruct v. Qed.

(** The constructor up to its test of the credentials. *)
Lemma constructor_guard (options : value) (w : env) :
  nullish options = false ->
  run (constructor options) w
  = if truthy (prop options "client_id") && truthy (prop options "client_secret")
    then
      (perform (Super (super_options options)) ;;;
       (if truthy (prop options "tokenStore")
        then perform (SetTokenStore (prop options "tokenStore"))
        else ret VUndefined) ;;;
       ret {| generteAccessToken :=
                refresh_closure
                  (default_to VNull (prop options "client_secret"))
                  (default_to VNull (prop options "client_id"))
                  (default_to (VStr "") (prop options "redirect_uri"))
                  (default_to (VStr "") (prop options "refresh_token")) |})
        w []
    else (Thrown (Error "Apaleo client credentials missing"), []).
Proof.
  intros Hobj. unfold run, constructor. reading Hobj.
  rewrite !truthy_default_null.
  destruct (truthy (prop options "client_id")),
           (truthy (prop options "client_secret")); reflexivity.
Qed.

(** X1. With both credentials present the constructor calls the base
    constructor once, with the refresh token of the options (the empty
    string when left out), the access token or the empty string, and
    the base URL of the configuration; it then installs the token store
    when the options carry one, and calls nothing else. *)
Theorem constructor_calls (options : value) (w : env) (r : value) :
  nullish options = false ->
  truthy (prop options "client_id") = true ->
  truthy (prop options "client_secret") = true ->
  w (Super (super_options options)) = Returned r ->
  calls (constructor options) w
  = Super (super_options options)
    :: (if truthy (prop options "tokenStore")
        then [SetTokenStore (prop options "tokenStore")] else []).
Proof.
  intros Hobj Hid Hsecret Hw. unfold calls.
  rewrite (constructor_guard _ _ Hobj), Hid, Hsecret. simpl.
  unfold bind at 1, perform at 1. rewrite Hw. cbv beta iota.
  destruct (truthy (prop options "tokenStore")).
  - unfold bind, perform, ret. simpl. by destruct (w (SetTokenStore _)).
  - reflexivity.
Qed.


(** X3. On an options object the constructor stays silent exactly when
    a credential is missing: it reaches the base constructor if and
    only if [client_id] and [client_secret] are both truthy (a [0] or
    [false] counts as missing, any other value is taken without a check
    of its type). *)
Theorem constructor_silent_iff (options : value) (w : env) :
  nullish options = false ->
  calls (constructor options) w = []
  <-> truthy (prop options "client_id") && truthy (prop options "client_secret")
      = false.
Proof.
  intros Hobj. unfold calls. rewrite (constructor_guard _ _ Hobj).
  destruct (truthy (prop options "client_id") &&
            truthy (prop options "client_secret")); [|done].
  split; [|discriminate]. intros Hcalls; exfalso.
  unfold bind at 1, perform at 1 in Hcalls.
  destruct (w (Super _)); [|discriminate Hcalls].
  destruct (truthy (prop options "tokenStore")).
  - unfold bind, perform, ret in Hcalls. simpl in Hcalls.
    by destruct (w (SetTokenStore _)).
  - discriminate Hcalls.
Qed.

(** X4. The refresh closure of a constructed adaptor asks the token
    endpoint once per call, with the credentials and the refresh token
    of the options: the [token] it is called with is not used.  It
    returns what the endpoint resolves with when that is truthy, throws
    ['... Cant create access token'] when it is falsy, and passes a
    rejection on. *)
Theorem constructed_refresh_closure (options : value) (w : env) :
  nullish options = false ->
  truthy (prop options "client_id") = true ->
  truthy (prop options "client_secret") = true ->
  (forall ev, construction_call ev = true -> exists r, w ev = Returned r) ->
  exists a,
    result (constructor options) w = Returned a
    /\ forall token w',
         let ask := GenerateAccessToken (token_request options) in
         calls (generteAccessToken a token) w' = [ask]
         /\ result (generteAccessToken a token) w'
            = match w' ask with
              | Returned data =>
                  if truthy data then Returned data
                  else Thrown (Error "ApaleoConnectAdaptor:generteAccessToken - Cant create access token")
              | Thrown e => Thrown e
              end.
Proof.
  intros Hobj Hid Hsecret Hw.
  eexists. split.
  - unfold result. rewrite (constructor_guard _ _ Hobj), Hid, Hsecret. simpl.
    unfold bind at 1, perform at 1.
    destruct (Hw (Super (super_options options)) eq_refl) as [r ->].
    cbv beta iota.
    destruct (truthy (prop options "tokenStore")).
    + unfold bind, perform, ret. simpl.
      destruct (Hw (SetTokenStore (prop options "tokenStore")) eq_refl)
        as [r' ->].
      reflexivity.
    + reflexivity.
  - intros token w' ask. simpl. split.
    + apply refresh_closure_calls.
    + subst ask. unfold result, run, refresh_closure, bind, perform, token_request.
      destruct (w' _) as [data|e]; [|reflexivity].
      by destruct (truthy data).
Qed.

End MoreConstruction.

(** ** Further properties: requests and failures *)

Section MoreRequests.
Context `{Mappers} `{Engine}.

Ltac open_method :=
  unfold invoke, invoke_list, invoke_single, request_of, list_request,
    single_request, getAccount, getHotels, getHotelById, getRoomsTypes,
    getRoomTypeById, getRatePlansByHotelId, getRatePlanById,
    getCancellationPolicies, getCancellationPolicyById, getNoShowPolicies,
    getNoShowPolicyById, getAgeCategories, getAgeCategoryById, getServices,
    getServiceById, getPromoCodes in *;
  cbv zeta in *.

Lemma ready_rates arg params :
  ready (ListOf Rates arg params) = true ->
  nullish arg = false /\ nullish (prop arg "rates_range") = false.
Proof.
  simpl. intros [Ha Hr]%andb_true_iff.
  by apply negb_true_iff in Ha, Hr.
Qed.

(** The log of a list method, whatever the vendor answers. *)
Lemma calls_invoke_list (m : list_method) (arg params : value) (w : env) :
  calls (invoke_list m arg params) w
  = if ready (ListOf m arg params) then [list_request m arg params] else [].
Proof.
  destruct m;
    try (simpl ready; cbv iota; open_method; apply calls_request_then; silence).
  destruct (ready (ListOf Rates arg params)) eqn:Hready.
  - apply ready_rates in Hready as [Harg Hrange].
    by apply getRatesByRatePlan_calls.
  - simpl in Hready. unfold calls, run, invoke_list, getRatesByRatePlan.
    destruct (nullish arg) eqn:Harg.
    { unfold bind, lift, get. by rewrite Harg. }
    simpl in Hready.
    apply negb_false_iff in Hready.
    reading Harg. unfold bind, lift, get. by rewrite Hready.
Qed.

(** X5. Every resource method calls [this.http.get] exactly once, with
    the request its source builds, whatever that call resolves or
    rejects with: the method itself makes no second call and calls
    nothing else.  [getRatesByRatePlan] alone may make none, when the
    rate plan is missing or carries no range.  How the driver serves the
    call is not the method's. *)
Theorem one_request (c : call) (w : env) :
  calls (invoke c) w = if ready c then [request_of c] else [].
Proof.
  destruct c as [|m arg params|m id params].
  - apply calls_request_then. silence.
  - apply calls_invoke_list.
  - destruct m; simpl ready; cbv iota; open_method;
      apply calls_request_then; silence.
Qed.

(** X6. A rejection of the request is the method's own outcome: the
    reason comes back as it is, nothing is caught, retried or
    replaced. *)
Theorem rejection_propagates (c : call) (w : env) (e : exn) :
  ready c = true ->
  w (request_of c) = Thrown e ->
  run (invoke c) w = (Thrown e, [request_of c]).
Proof.
  intros Hready Hw. unfold run.
  destruct c as [|m arg params|m id params].
  - open_method. answered Hw. reflexivity.
  - destruct m; try (open_method; answered Hw; reflexivity).
    apply ready_rates in Hready as [Harg Hrange].
    unfold invoke, invoke_list, getRatesByRatePlan, request_of, list_request in *.
    cbv zeta in *.
    reading Harg. reading Hrange. reading Hrange. answered Hw. reflexivity.
  - destruct m; open_method; answered Hw; reflexivity.
Qed.

(** X7. When the driver resolves with [undefined] or [null] instead of
    a response, every method fails with the TypeError of reading
    [data], after its one request. *)
Theorem response_missing (c : call) (w : env) (res : value) :
  ready c = true ->
  w (request_of c) = Returned res ->
  nullish res = true ->
  run (invoke c) w = (Thrown (TypeError "data"), [request_of c]).
Proof.
  intros Hready Hw Hres. unfold run.
  assert (Hget : get res "data" = Thrown (TypeError "data"))
    by (unfold get; by rewrite Hres).
  destruct c as [|m arg params|m id params].
  - open_method. answered Hw. unfold lift. by rewrite Hget.
  - destruct m;
      try (open_method; answered Hw; unfold bind at 1, lift at 1;
           rewrite Hget; reflexivity).
    apply ready_rates in Hready as [Harg Hrange].
    unfold invoke, invoke_list, getRatesByRatePlan, request_of, list_request in *.
    cbv zeta in *.
    reading Harg. reading Hrange. reading Hrange. answered Hw.
    unfold bind at 1, lift at 1. rewrite Hget. reflexivity.
  - destruct m; open_method; answered Hw; unfold bind at 1, lift at 1;
      rewrite Hget; reflexivity.
Qed.

Lemma array_map_not_array v f w log :
  is_array v = false -> array_map v f w log = (Thrown (TypeError "map"), log).
Proof. by destruct v. Qed.

(** X8. A vendor payload whose page field is not an array (left out,
    [null], an object, ...) makes the list method fail with the
    TypeError of calling [map], after its one request; no empty page is
    substituted. *)
Theorem page_not_an_array
    (m : list_method) (arg params : value) (w : env) (res payload : value) :
  ready (ListOf m arg params) = true ->
  w (list_request m arg params) = Returned res ->
  get res "data" = Returned payload ->
  nullish payload = false ->
  is_array (prop payload (items_key m)) = false ->
  run (invoke_list m arg params) w
  = (Thrown (TypeError "map"), [list_request m arg params]).
Proof.
  intros Hready Hw Hres Hpayload Hitems. unfold run.
  apply get_data in Hres as [Hnn <-].
  destruct m; simpl in Hitems;
    try (open_method; answered Hw; reading Hnn; reading Hpayload;
         unfold bind at 1; rewrite (array_map_not_array _ _ _ _ Hitems);
         reflexivity).
  apply ready_rates in Hready as [Harg Hrange].
  unfold invoke_list, getRatesByRatePlan, list_request in *. cbv zeta in *.
  reading Harg. reading Hrange. reading Hrange. answered Hw.
  reading Hnn. reading Hpayload.
  unfold bind at 1. rewrite (array_map_not_array _ _ _ _ Hitems). reflexivity.
Qed.

(** X9. A response without a payload ([data] left out or [null]) makes
    the list method fail with the TypeError of its first read off the
    payload: [count] for [getRoomsTypes], the page field for the
    others. *)
Theorem payload_missing
    (m : list_method) (arg params : value) (w : env) (res : value) :
  ready (ListOf m arg params) = true ->
  w (list_request m arg params) = Returned res ->
  nullish res = false ->
  nullish (prop res "data") = true ->
  run (invoke_list m arg params) w
  = (Thrown (TypeError (first_read m)), [list_request m arg params]).
Proof.
  intros Hready Hw Hnn Hpayload. unfold run.
  assert (Hget : forall k, get (prop res "data") k = Thrown (TypeError k))
    by (intros k; unfold get; by rewrite Hpayload).
  destruct m;
    try (open_method; answered Hw; reading Hnn;
         unfold bind at 1, lift at 1; rewrite Hget; reflexivity).
  apply ready_rates in Hready as [Harg Hrange].
  unfold invoke_list, getRatesByRatePlan, list_request in *. cbv zeta in *.
  reading Harg. reading Hrange. reading Hrange. answered Hw. reading Hnn.
  unfold bind at 1, lift at 1. rewrite Hget. reflexivity.
Qed.

Lemma prop_obj_from_other base fs k :
  k ∉ fs.*1 -> prop (obj_from base fs) k = default VUndefined (base !! k).
Proof.
  revert base. induction fs as [|[k' v] fs IH]; intros base Hk.
  - reflexivity.
  - apply not_elem_of_cons in Hk as [Hne Hk].
    change (obj_from base ((k', v) :: fs)) with (obj_from (<[k' := v]> base) fs).
    rewrite (IH _ Hk). simpl. by rewrite lookup_insert_ne.
Qed.

(** X10. Every list method but [getPromoCodes] forwards the caller's
    filters: each entry of the bag under a key the method does not
    write itself reaches the request unchanged. *)
Theorem filters_forwarded
    (m : list_method) (arg : value) (o : gmap string value) (w : env)
    (k : string) :
  forwards_bag m = true ->
  ready (ListOf m arg (VObj o)) = true ->
  k ∉ own_keys m ->
  exists url config,
    calls (invoke_list m arg (VObj o)) w = [HttpGet url config]
    /\ prop (prop config "params") k = default VUndefined (o !! k).
Proof.
  intros Hfw Hready Hk.
  pose proof (calls_invoke_list m arg (VObj o) w) as Hcalls.
  rewrite Hready in Hcalls. rewrite Hcalls.
  destruct m; try discriminate Hfw; unfold list_request; cbv zeta;
    eexists _, _; (split; [reflexivity|]); rewrite prop_obj_single;
    first [ reflexivity | by apply (prop_obj_from_other o) ].
Qed.

(** X11. With the bag left out, or [null], a list method that takes a
    hotel or property identifier sends that identifier as its only
    query parameter. *)
Theorem scoping_only_without_bag
    (m : list_method) (hotelId params : value) (w : env) :
  scoped m = true ->
  nullish params = true ->
  exists url,
    calls (invoke_list m hotelId params) w
    = [HttpGet url (obj [("params", obj [("propertyId", hotelId)])])].
Proof.
  intros Hscoped Hbag.
  rewrite (calls_invoke_list m hotelId params w).
  destruct m; try discriminate Hscoped;
    destruct params; try discriminate Hbag; by eexists.
Qed.

Lemma map_elements_promo_unreadable l w log :
  existsb nullish l = true ->
  map_elements promo_code_cb l w log = (Thrown (TypeError "code"), log).
Proof.
  revert log. induction l as [|pc l IH]; intros log Hex; simpl in *.
  - discriminate.
  - unfold bind at 1. unfold promo_code_cb at 1.
    destruct (nullish pc) eqn:Hpc.
    + unfold bind, lift, get. by rewrite Hpc.
    + reading Hpc. unfold ret at 1. unfold bind at 1.
      by rewrite (IH _ Hex).
Qed.

(** X12. One [null] among the vendor's promo codes fails the whole
    call: [getPromoCodes] rejects with the TypeError of reading [code]
    and returns none of the other entries. *)
Theorem promo_unreadable_element
    (hotelId params : value) (w : env) (res payload : value)
    (items : list value) :
  w (list_request PromoCodes hotelId params) = Returned res ->
  get res "data" = Returned payload ->
  prop payload "promoCodes" = VArr items ->
  existsb nullish items = true ->
  run (getPromoCodes hotelId params) w
  = (Thrown (TypeError "code"), [list_request PromoCodes hotelId params]).
Proof.
  intros Hw Hres Hitems Hex. unfold run.
  apply get_data in Hres as [Hnn <-].
  pose proof (prop_array_not_nullish _ _ _ Hitems) as Hpayload.
  open_method. answered Hw. reading Hnn. reading Hpayload.
  unfold bind at 1. rewrite Hitems. unfold array_map, bind at 1.
  by rewrite (map_elements_promo_unreadable _ _ _ Hex).
Qed.

Lemma promo_convert_ids_truthy pc :
  truthy (prop (promo_convert pc) "related_rateplan_ids") = true.
Proof.
  assert (Hids : prop (promo_convert pc) "related_rateplan_ids"
                 = if truthy (prop pc "relatedRateplanIds")
                   then prop pc "relatedRateplanIds" else VArr [])
    by apply (prop_obj_last ∅ [("code", prop pc "code")]).
  rewrite Hids.
  by destruct (truthy (prop pc "relatedRateplanIds")) eqn:Htruthy.
Qed.

(** X13. On a page whose elements can all be read, [getPromoCodes]
    returns, element by element and in order, [code] as the vendor sent
    it and [related_rateplan_ids] equal to the vendor's
    [relatedRateplanIds] when that is truthy, whatever its type, and to
    an empty array otherwise; the field is therefore never [null] or
    [undefined]. *)
Theorem promo_related_ids_present
    (hotelId params : value) (w : env) (res payload : value)
    (items : list value) :
  let entry pc :=
    obj [("code", prop pc "code");
         ("related_rateplan_ids",
          if truthy (prop pc "relatedRateplanIds")
          then prop pc "relatedRateplanIds" else VArr [])] in
  w (list_request PromoCodes hotelId params) = Returned res ->
  get res "data" = Returned payload ->
  prop payload "promoCodes" = VArr items ->
  forallb (fun pc => negb (nullish pc)) items = true ->
  run (getPromoCodes hotelId params) w
  = (Returned (obj [("data", VArr (entry <$> items));
                    ("count", prop payload "count")]),
     [list_request PromoCodes hotelId params])
  /\ Forall (fun e => truthy (prop e "related_rateplan_ids") = true)
        (entry <$> items).
Proof.
  intros entry Hw Hres Hitems Hread. split.
  - exact (invoke_list_run PromoCodes hotelId params w res payload items
             Hw Hres Hitems Hread).
  - apply Forall_fmap, Forall_forall. intros pc _.
    apply promo_convert_ids_truthy.
Qed.

(** X14. Every by-id method returns what its own mapper makes of the
    vendor payload, after its one request: [toConnectedHotel] for
    [getHotelById], [toConnectedRoomType] for [getRoomTypeById], and so
    on down the class. *)
Theorem by_id_mapped
    (m : single_method) (id params : value) (w : env) (res payload : value) :
  w (single_request m id params) = Returned res ->
  get res "data" = Returned payload ->
  run (invoke_single m id params) w
  = (Returned (single_mapper m payload), [single_request m id params]).
Proof.
  intros Hw Hres. apply get_data in Hres as [Hnn <-]. unfold run.
  destruct m; open_method; answered Hw; reading Hnn; reflexivity.
Qed.

(** X15. Every list method that imports a mapper returns the vendor's
    page converted by that mapper element by element, in order, next to
    the vendor's count, after its one request. *)
Theorem list_mapped_in_order
    (m : list_method) (f : value -> value) (arg params : value) (w : env)
    (res payload : value) (items : list value) :
  list_mapper m = Some f ->
  ready (ListOf m arg params) = true ->
  w (list_request m arg params) = Returned res ->
  get res "data" = Returned payload ->
  prop payload (items_key m) = VArr items ->
  run (invoke_list m arg params) w
  = (Returned (obj [("data", VArr (f <$> items));
                    ("count", prop payload "count")]),
     [list_request m arg params]).
Proof.
  intros Hf Hready Hw Hres Hitems.
  assert (Hacc : accepts m arg items = true)
    by (destruct m; try discriminate Hf; done).
  rewrite (invoke_list_run m arg params w res payload items Hw Hres Hitems Hacc).
  unfold list_entries. by rewrite Hf.
Qed.

End MoreRequests.

(** ** The further properties on sample data *)

Lemma constructor_calls_witness :
  calls (@constructor Sample.config Fixture.options) (vendor VNull)
  = [Super (obj [("refreshToken", VStr "rt-1"); ("accessToken", VStr "");
                 ("baseUrl", VStr "https://api.apaleo.com")]);
     SetTokenStore (obj [("kind", VStr "file")])].
Proof.
  apply (@constructor_calls Sample.config Fixture.options (vendor VNull)
           (response VNull)); reflexivity.
Defined.

(** A numeric [client_id] of [0] counts as missing. *)
Lemma constructor_silent_iff_witness :
  calls (@constructor Sample.config
           (obj [("client_id", VNum 0); ("client_secret", VStr "secret")]))
        (vendor VNull)
  = [].
Proof.
  apply (proj2 (@constructor_silent_iff Sample.config
                  (obj [("client_id", VNum 0); ("client_secret", VStr "secret")])
                  (vendor VNull) eq_refl)).
  reflexivity.
Defined.

(** Called with the rotated token [rt-2], the closure still sends the
    [rt-1] of the options. *)
Lemma constructed_refresh_closure_witness :
  exists a,
    result (@constructor Sample.config Fixture.options) (vendor VNull) = Returned a
    /\ calls (generteAccessToken a (VStr "rt-2")) (vendor VNull)
       = [GenerateAccessToken
            (obj [("client_secret", VStr "secret"); ("client_id", VStr "id");
                  ("redirect_uri", VStr "https://cb"); ("refresh", VStr "rt-1")])].
Proof.
  destruct (@constructed_refresh_closure Sample.config Fixture.options
              (vendor VNull) eq_refl eq_refl eq_refl
              (fun ev _ => ex_intro _ (response VNull) eq_refl))
    as (a & Ha & Hclosure).
  exists a. split; [exact Ha|].
  exact (proj1 (Hclosure (VStr "rt-2") (vendor VNull))).
Defined.

Lemma rejection_propagates_witness :
  run (@getHotelById Sample.mappers Sample.engine (VStr "H1") VUndefined)
      (Fixture.failing (VStr "503"))
  = (Thrown (Rejected (VStr "503")),
     [HttpGet "/inventory/v1/properties/H1" (obj [("params", obj [])])]).
Proof.
  apply (@rejection_propagates Sample.mappers Sample.engine
           (ById HotelById (VStr "H1") VUndefined)
           (Fixture.failing (VStr "503"))); reflexivity.
Defined.

Lemma response_missing_witness :
  run getAccount (Fixture.resolving VUndefined)
  = (Thrown (TypeError "data"),
     [HttpGet "/account/v1/accounts/current" VUndefined]).
Proof.
  apply (@response_missing Sample.mappers Sample.engine Account
           (Fixture.resolving VUndefined) VUndefined); reflexivity.
Defined.

(** A payload [{count: 0}] without [services]. *)
Lemma page_not_an_array_witness :
  run (@getServices Sample.mappers (VStr "H1") VUndefined)
      (vendor (obj [("count", VNum 0)]))
  = (Thrown (TypeError "map"),
     [HttpGet "/rateplan/v1/services"
        (obj [("params", obj [("propertyId", VStr "H1")])])]).
Proof.
  apply (@page_not_an_array Sample.mappers Sample.engine Services (VStr "H1") VUndefined
           (vendor (obj [("count", VNum 0)]))
           (response (obj [("count", VNum 0)])) (obj [("count", VNum 0)]));
    reflexivity.
Defined.

Lemma payload_missing_witness :
  run (@getRoomsTypes Sample.mappers (VStr "H1") VUndefined) (vendor VNull)
  = (Thrown (TypeError "count"),
     [HttpGet "/inventory/v1/unit-groups"
        (obj [("params", obj [("propertyId", VStr "H1")])])]).
Proof.
  apply (@payload_missing Sample.mappers Sample.engine RoomTypes (VStr "H1") VUndefined
           (vendor VNull) (response VNull)); reflexivity.
Defined.

Lemma filters_forwarded_witness :
  exists url config,
    calls (@getServices Sample.mappers (VStr "H1") (VObj Fixture.filters))
          (vendor VNull)
    = [HttpGet url config]
    /\ prop (prop config "params") "pageSize" = VNum 10.
Proof.
  apply (@filters_forwarded Sample.mappers Sample.engine Services (VStr "H1") Fixture.filters
           (vendor VNull) "pageSize" eq_refl eq_refl).
  apply not_elem_of_cons. split; [discriminate | apply not_elem_of_nil].
Defined.

Lemma scoping_only_without_bag_witness :
  exists url,
    calls (@getRatePlansByHotelId Sample.mappers (VStr "H1") VNull) (vendor VNull)
    = [HttpGet url (obj [("params", obj [("propertyId", VStr "H1")])])].
Proof.
  apply (@scoping_only_without_bag Sample.mappers Sample.engine RatePlans (VStr "H1") VNull
           (vendor VNull)); reflexivity.
Defined.

Lemma promo_unreadable_element_witness :
  run (getPromoCodes (VStr "H1") VUndefined) (vendor Fixture.page_with_hole)
  = (Thrown (TypeError "code"),
     [HttpGet "/rateplan/v1/promo-codes/codes"
        (obj [("params", obj [("propertyId", VStr "H1")])])]).
Proof.
  apply (@promo_unreadable_element Sample.engine (VStr "H1") VUndefined
           (vendor Fixture.page_with_hole) (response Fixture.page_with_hole)
           Fixture.page_with_hole [obj [("code", VStr "SUMMER")]; VNull]);
    reflexivity.
Defined.

(** A truthy [relatedRateplanIds] that is no array goes through as it
    is; [0] and an absent field give the empty array. *)
Lemma promo_related_ids_present_witness :
  result (getPromoCodes (VStr "H1") VUndefined) (vendor Fixture.loose_promo_page)
  = Returned
      (obj [("count", VNum 3);
            ("data",
             VArr [obj [("code", VStr "A"); ("related_rateplan_ids", VStr "RP1")];
                   obj [("code", VStr "B"); ("related_rateplan_ids", VArr [])];
                   obj [("code", VStr "C"); ("related_rateplan_ids", VArr [])]])]).
Proof.
  unfold result.
  rewrite (proj1 (@promo_related_ids_present Sample.mappers Sample.engine
                    (VStr "H1") VUndefined
                    (vendor Fixture.loose_promo_page)
                    (response Fixture.loose_promo_page)
                    Fixture.loose_promo_page
                    [obj [("code", VStr "A"); ("relatedRateplanIds", VStr "RP1")];
                     obj [("code", VStr "B"); ("relatedRateplanIds", VNum 0)];
                     obj [("code", VStr "C")]]
                    eq_refl eq_refl eq_refl eq_refl)).
  reflexivity.
Defined.

Lemma by_id_mapped_witness :
  run (@getRoomTypeById Sample.mappers Sample.engine (VStr "RT1"))
      (vendor (obj [("id", VStr "RT1")]))
  = (Returned (@toConnectedRoomType Sample.mappers (obj [("id", VStr "RT1")])),
     [HttpGet "/inventory/v1/unit-groups/RT1" VUndefined]).
Proof.
  apply (@by_id_mapped Sample.mappers Sample.engine RoomTypeById (VStr "RT1")
           VUndefined (vendor (obj [("id", VStr "RT1")]))
           (response (obj [("id", VStr "RT1")])));
    reflexivity.
Defined.

Lemma list_mapped_in_order_witness :
  run (@getHotels Sample.mappers (obj [])) (vendor Sample.short_count_page)
  = (Returned
       (obj [("count", VNum 1);
             ("data",
              VArr [@toConnectedHotel Sample.mappers (obj [("id", VStr "P1")]);
                    @toConnectedHotel Sample.mappers (obj [("id", VStr "P2")])])]),
     [HttpGet "/inventory/v1/properties" (obj [("params", obj [])])]).
Proof.
  exact (@list_mapped_in_order Sample.mappers Sample.engine Hotels
           (@toConnectedHotel Sample.mappers) VUndefined (obj [])
           (vendor Sample.short_count_page)
           (response Sample.short_count_page) Sample.short_count_page
           [obj [("id", VStr "P1")]; obj [("id", VStr "P2")]]
           eq_refl eq_refl eq_refl eq_refl eq_refl).
Defined.
